(** * ThemeStore (src/App.tsx): a shallow embedding of the theme, routing,
      product-fetch and page-rendering logic, with the properties of its
      specification.

    Conventions of the embedding.
    - A JavaScript string is a [string]; [===] on strings is [String.eqb].
    - [null]/[undefined] are [None] of an [option].
    - [localStorage] is a finite map from keys to strings ([gmap string string]):
      [getItem] is lookup, [setItem] is insert.
    - React state cells are fields of explicit state records; every setter is
      a function from state to state.
    - JSX is a first-order tree ([Node]). *)

From Stdlib Require Import String List ZArith Bool.
From Stdlib Require Import FunInd Recdef.
From stdpp Require Import gmap strings list fin_maps.

Local Open Scope string_scope.

(** ** Theme identifiers

    [type ThemeType = 'theme1' | 'theme2' | 'theme3'] is a compile-time
    annotation only; at run time a theme is a string, and the cast
    [saved as ThemeType] checks nothing.  A theme is therefore a [string]
    here, and [isThemeType] is the membership test of the union type. *)

Definition isThemeType (theme : string) : bool :=
  String.eqb theme "theme1" || String.eqb theme "theme2" || String.eqb theme "theme3".

(** ** Theme styles (lines 85-175) *)

Record ThemeStyles : Type := mkThemeStyles {
  container : string;
  header : string;
  headerContent : string;
  logo : string;
  dropdown : string;
  dropdownButton : string;
  dropdownMenu : string;
  nav : string;
  navButton : string;
  main : string;
  sidebar : option string;
  content : option string;
  title : string;
  paragraph : string;
  button : string;
  card : string;
  productGrid : string;
  productCard : string
}.

Definition baseTransition : string := "transition-all duration-500 ease-in-out".

(** The [default:] branch of the [switch] calls [getThemeStyles('theme1')]
    again.  The recursion is kept; it terminates because the argument of the
    recursive call is a recognised identifier. *)

Definition switchDepth (theme : string) : nat :=
  if isThemeType theme then 0 else 1.

Function getThemeStyles (theme : string) {measure switchDepth theme} : ThemeStyles :=
  if String.eqb theme "theme1" then
    {| container := "min-h-screen bg-gray-50 text-gray-900 font-sans " ++ baseTransition;
       header := "fixed top-0 w-full bg-white shadow-sm border-b border-gray-200 z-50 " ++ baseTransition;
       headerContent := "max-w-6xl mx-auto px-4 py-4 flex justify-between items-center";
       logo := "text-xl font-medium text-gray-900";
       dropdown := "relative";
       dropdownButton := "flex items-center space-x-2 px-4 py-2 bg-gray-100 rounded-lg hover:bg-gray-200 transition-colors";
       dropdownMenu := "absolute right-0 mt-2 w-48 bg-white rounded-lg shadow-lg border border-gray-200 py-2";
       nav := "flex space-x-6";
       navButton := "flex items-center space-x-2 px-3 py-2 text-gray-600 hover:text-gray-900 transition-colors";
       main := "pt-20 max-w-4xl mx-auto px-4 py-8";
       sidebar := None;
       content := None;
       title := "text-3xl font-light mb-6 text-gray-800";
       paragraph := "text-base leading-relaxed mb-6 text-gray-600";
       button := "px-6 py-3 bg-blue-600 text-white rounded-lg hover:bg-blue-700 transition-colors font-medium";
       card := "bg-white p-6 rounded-lg shadow-sm border border-gray-200 mb-4";
       productGrid := "grid grid-cols-1 md:grid-cols-2 lg:grid-cols-3 gap-6 mt-8";
       productCard := "bg-white p-4 rounded-lg shadow-sm border border-gray-200 hover:shadow-md transition-shadow" |}
  else if String.eqb theme "theme2" then
    {| container := "min-h-screen bg-gray-900 text-gray-100 font-serif " ++ baseTransition;
       header := "fixed top-0 w-full bg-gray-800 shadow-lg border-b border-gray-700 z-50 " ++ baseTransition;
       headerContent := "max-w-6xl mx-auto px-4 py-4 flex justify-between items-center";
       logo := "text-2xl font-bold text-yellow-400";
       dropdown := "relative";
       dropdownButton := "flex items-center space-x-2 px-4 py-2 bg-gray-700 rounded-lg hover:bg-gray-600 transition-colors text-gray-100";
       dropdownMenu := "absolute right-0 mt-2 w-48 bg-gray-800 rounded-lg shadow-xl border border-gray-600 py-2";
       nav := "flex space-x-6";
       navButton := "flex items-center space-x-2 px-3 py-2 text-gray-300 hover:text-yellow-400 transition-colors";
       main := "pt-20 flex";
       sidebar := Some "w-64 bg-gray-800 min-h-screen p-6 fixed left-0 top-20";
       content := Some "ml-64 flex-1 p-8";
       title := "text-4xl font-bold mb-8 text-yellow-400";
       paragraph := "text-lg leading-relaxed mb-8 text-gray-300 font-light";
       button := "px-8 py-4 bg-yellow-600 text-gray-900 rounded-lg hover:bg-yellow-500 transition-colors font-bold text-lg";
       card := "bg-gray-800 p-8 rounded-xl shadow-xl border border-gray-700 mb-6";
       productGrid := "grid grid-cols-1 lg:grid-cols-2 gap-8 mt-8";
       productCard := "bg-gray-800 p-6 rounded-xl shadow-xl border border-gray-700 hover:border-yellow-600 transition-colors" |}
  else if String.eqb theme "theme3" then
    {| container := "min-h-screen bg-gradient-to-br from-pink-100 via-purple-50 to-indigo-100 text-gray-800 " ++ baseTransition;
       header := "fixed top-0 w-full bg-white/80 backdrop-blur-md shadow-lg border-b border-pink-200 z-50 " ++ baseTransition;
       headerContent := "max-w-6xl mx-auto px-4 py-4 flex justify-between items-center";
       logo := "text-2xl font-bold bg-gradient-to-r from-pink-500 to-purple-600 bg-clip-text text-transparent";
       dropdown := "relative";
       dropdownButton := "flex items-center space-x-2 px-4 py-2 bg-gradient-to-r from-pink-500 to-purple-600 text-white rounded-full hover:from-pink-600 hover:to-purple-700 transition-all shadow-lg";
       dropdownMenu := "absolute right-0 mt-2 w-48 bg-white/90 backdrop-blur-md rounded-2xl shadow-xl border border-pink-200 py-2";
       nav := "flex space-x-4";
       navButton := "flex items-center space-x-2 px-4 py-2 text-purple-600 hover:bg-purple-100 rounded-full transition-colors";
       main := "pt-20 max-w-6xl mx-auto px-4 py-8";
       sidebar := None;
       content := None;
       title := "text-5xl font-bold mb-8 bg-gradient-to-r from-pink-500 via-purple-500 to-indigo-500 bg-clip-text text-transparent text-center";
       paragraph := "text-lg leading-relaxed mb-8 text-center max-w-2xl mx-auto text-gray-700";
       button := "px-8 py-4 bg-gradient-to-r from-pink-500 to-purple-600 text-white rounded-full hover:from-pink-600 hover:to-purple-700 transition-all shadow-lg font-bold text-lg transform hover:scale-105";
       card := "bg-white/60 backdrop-blur-md p-8 rounded-3xl shadow-xl border border-white/50 mb-6 hover:bg-white/70 transition-all";
       productGrid := "grid grid-cols-1 md:grid-cols-2 xl:grid-cols-4 gap-6 mt-12";
       productCard := "bg-white/70 backdrop-blur-md p-6 rounded-3xl shadow-xl border border-white/50 hover:shadow-2xl hover:scale-105 transition-all duration-300" |}
  else getThemeStyles "theme1".
Proof.
  intros theme H1 H2 H3. unfold switchDepth, isThemeType.
  rewrite H1, H2, H3. simpl. lia.
Defined.

(** The recursion is opened by the equation [getThemeStyles_equation], not by
    reduction. *)
Arguments getThemeStyles : simpl never.

(** The three bundles, as the [switch] returns them. *)
Definition theme1Styles : ThemeStyles := Eval vm_compute in getThemeStyles "theme1".
Definition theme2Styles : ThemeStyles := Eval vm_compute in getThemeStyles "theme2".
Definition theme3Styles : ThemeStyles := Eval vm_compute in getThemeStyles "theme3".

(** The tokens of the regions every theme must style. *)
Definition requiredTokens (styles : ThemeStyles) : list string :=
  [container styles; header styles; nav styles; button styles; card styles;
   productGrid styles; productCard styles; title styles; paragraph styles; main styles].

(** The remaining tokens that the interface declares without [?]. *)
Definition headerTokens (styles : ThemeStyles) : list string :=
  [headerContent styles; logo styles; dropdown styles; dropdownButton styles;
   dropdownMenu styles; navButton styles].

(** How a string stands to the union type [ThemeType]. *)
Inductive ThemeView : string -> Prop :=
| IsTheme1 : ThemeView "theme1"
| IsTheme2 : ThemeView "theme2"
| IsTheme3 : ThemeView "theme3"
| Unrecognized : forall theme, isThemeType theme = false -> ThemeView theme.

(** ** Persistent store and theme cell (lines 37-52)

    [localStorage] holds string values under string keys. *)

Definition themeKey : string := "app-theme".

Definition getItem (key : string) (storage : gmap string string) : option string :=
  storage !! key.

Definition setItem (key value : string) (storage : gmap string string) : gmap string string :=
  <[key := value]> storage.

(** [a || b] on a value that is a string or [null]: [null] and the empty
    string are falsy, every other string is truthy. *)

Definition orElse (a : option string) (b : string) : string :=
  match a with
  | None => b
  | Some s => if String.eqb s "" then b else s
  end.

(** The lazy initialiser of [useState<ThemeType>] in [ThemeProvider]:
    [const saved = localStorage.getItem('app-theme');
     return (saved as ThemeType) || 'theme1';] *)

Definition loadTheme (storage : gmap string string) : string :=
  let saved := getItem themeKey storage in
  orElse saved "theme1".

(** ** Router cell (lines 70-82) and the application state

    The theme cell lives in [ThemeProvider], the page cell in
    [RouterProvider]; [localStorage] is the browser's.  One record holds the
    three. *)

Record AppState : Type := mkAppState {
  theme : string;
  currentPage : string;
  storage : gmap string string
}.

(** [setTheme(t)]: the state setter of the theme cell. *)
Definition setTheme (t : string) (st : AppState) : AppState :=
  {| theme := t; currentPage := currentPage st; storage := storage st |}.

(** [useEffect(() => { localStorage.setItem('app-theme', theme) }, [theme])]:
    the effect body. *)
Definition persistTheme (st : AppState) : AppState :=
  {| theme := theme st; currentPage := currentPage st;
     storage := setItem themeKey (theme st) (storage st) |}.

(** After a commit React runs the effect when its dependency [theme] differs
    from the one of the previous commit; setting a state cell to the value it
    already holds commits nothing new, so the effect does not run. *)
Definition commitEffects (prev next : AppState) : AppState :=
  if String.eqb (theme prev) (theme next) then next else persistTheme next.

(** Mounting [<App/>] over a given store: both initialisers run, then the
    theme effect runs once (effects always run after the first commit). *)
Definition mount (storage0 : gmap string string) : AppState :=
  persistTheme {| theme := loadTheme storage0; currentPage := "home"; storage := storage0 |}.

(** [selectTheme(x)]: the theme picker's [onClick] calls [setTheme(x)]; the
    commit that follows runs the persisting effect. *)
Definition selectTheme (x : string) (st : AppState) : AppState :=
  commitEffects st (setTheme x st).

(** [navigate(page)]: [setCurrentPage(page)], nothing else. *)
Definition navigate (page : string) (st : AppState) : AppState :=
  {| theme := theme st; currentPage := page; storage := storage st |}.

(** A reload discards the two cells and mounts again over the store that the
    previous run left behind. *)
Definition reload (st : AppState) : AppState := mount (storage st).

(** User actions and the states an instance can reach from a mount. *)
Inductive Action : Type :=
| ASelectTheme (x : string)
| ANavigate (page : string).

Definition act (a : Action) (st : AppState) : AppState :=
  match a with
  | ASelectTheme x => selectTheme x st
  | ANavigate page => navigate page st
  end.

Inductive reachable : AppState -> Prop :=
| reach_mount : forall storage0, reachable (mount storage0)
| reach_act : forall st a, reachable st -> reachable (act a st).

(** A sequence of user actions, applied in order. *)
Definition run (actions : list Action) (st : AppState) : AppState :=
  fold_left (fun st a => act a st) actions st.

(** ** Products (lines 5-16)

    A JavaScript [number] is an opaque, display-only value of the program:
    it is a type parameter [number] of the embedding. *)

Module Product.
Record Rating (number : Type) : Type := mkRating {
  rate : number;
  count : number
}.
Record t (number : Type) : Type := mk {
  id : number;
  title : string;
  price : number;
  description : string;
  category : string;
  image : string;
  rating : Rating number
}.
Arguments rate {number} _.
Arguments count {number} _.
Arguments id {number} _.
Arguments title {number} _.
Arguments price {number} _.
Arguments description {number} _.
Arguments category {number} _.
Arguments image {number} _.
Arguments rating {number} _.
End Product.

(** ** Promises and exceptions

    What is thrown and caught: an [Error] with its message, or any other
    value. *)
Inductive Thrown : Type :=
| ThrownError (message : string)
| ThrownOther.

(** An awaited promise either resolves or rejects; [await] inside [try]
    sequences such completions. *)
Inductive Completion (A : Type) : Type :=
| Resolved (a : A)
| Rejected (e : Thrown).
Arguments Resolved {A} a.
Arguments Rejected {A} e.

#[export] Instance Completion_bind : MBind Completion :=
  fun A B (k : A -> Completion B) (c : Completion A) =>
    match c with
    | Resolved a => k a
    | Rejected e => Rejected e
    end.


(** ** Header data (lines 184-194)

    The entries of the theme picker and of the navigation bar.  An icon
    component is named by its export in the icon library. *)

Module ThemeOption.
Record t : Type := mk {
  id : string;
  name : string
}.
End ThemeOption.

Module NavItem.
Record t : Type := mk {
  id : string;
  name : string;
  icon : string
}.
End NavItem.

Definition themes : list ThemeOption.t :=
  [ ThemeOption.mk "theme1" "Light";
    ThemeOption.mk "theme2" "Dark";
    ThemeOption.mk "theme3" "Colorful" ].

Definition navItems : list NavItem.t :=
  [ NavItem.mk "home" "Home" "Home";
    NavItem.mk "about" "About" "Info";
    NavItem.mk "contact" "Contact" "Mail" ].

(** [themes.find(t => t.id === theme)?.name] *)
Definition themeName (theme : string) : option string :=
  ThemeOption.name <$> find (fun t => String.eqb (ThemeOption.id t) theme) themes.

(** The page identifiers that [renderPage] and the navigation bar know. *)
Definition isPage (page : string) : bool :=
  String.eqb page "home" || String.eqb page "about" || String.eqb page "contact".

(** How a string stands to the page identifiers. *)
Inductive PageView : string -> Prop :=
| IsHome : PageView "home"
| IsAbout : PageView "about"
| IsContact : PageView "contact"
| UnknownPage : forall page, isPage page = false -> PageView page.

(** ** The header's own state cell and the click handlers (lines 181-234)

    [dropdownOpen] is local to [Header]; the other two cells are reached
    through the contexts. *)

Record UiState : Type := mkUiState {
  app : AppState;
  dropdownOpen : bool
}.

Definition mountUi (storage0 : gmap string string) : UiState :=
  {| app := mount storage0; dropdownOpen := false |}.

(** [onClick={() => navigate(item.id)}] *)
Definition clickNavItem (item : NavItem.t) (ui : UiState) : UiState :=
  {| app := navigate (NavItem.id item) (app ui); dropdownOpen := dropdownOpen ui |}.

(** [onClick={() => setDropdownOpen(!dropdownOpen)}] *)
Definition clickDropdownButton (ui : UiState) : UiState :=
  {| app := app ui; dropdownOpen := negb (dropdownOpen ui) |}.

(** [onClick={() => { setTheme(themeOption.id); setDropdownOpen(false); }}] *)
Definition clickThemeOption (themeOption : ThemeOption.t) (ui : UiState) : UiState :=
  {| app := selectTheme (ThemeOption.id themeOption) (app ui); dropdownOpen := false |}.

(** What a user can do with the rendered header: click one of the
    navigation buttons, the picker button, or (the menu being open) one of
    its entries. *)
Inductive Click : Type :=
| NavClick (item : NavItem.t)
| DropdownClick
| OptionClick (themeOption : ThemeOption.t).

Definition offered (ui : UiState) (c : Click) : Prop :=
  match c with
  | NavClick item => In item navItems
  | DropdownClick => True
  | OptionClick themeOption => dropdownOpen ui = true /\ In themeOption themes
  end.

Definition click (c : Click) (ui : UiState) : UiState :=
  match c with
  | NavClick item => clickNavItem item ui
  | DropdownClick => clickDropdownButton ui
  | OptionClick themeOption => clickThemeOption themeOption ui
  end.

Inductive uiReachable (storage0 : gmap string string) : UiState -> Prop :=
| ui_mount : uiReachable storage0 (mountUi storage0)
| ui_click : forall ui c, uiReachable storage0 ui -> offered ui c ->
    uiReachable storage0 (click c ui).

Section Storefront.

Context {number : Type}.

Abbreviation Product := (Product.t number).

(** ** The product hook (lines 249-272) *)

(** The part of a [Response] that the hook reads: the [ok] flag and the
    outcome of [response.json()].  The parsed body is taken to be an array of
    products, as the hook's state type says. *)
Record Response : Type := mkResponse {
  ok : bool;
  json : Completion (list Product)
}.

(** The three state cells of [useProducts]. *)
Record ProductsState : Type := mkProductsState {
  products : list Product;
  loading : bool;
  error : option string
}.

Definition initialProducts : ProductsState :=
  {| products := []; loading := true; error := None |}.

Inductive Setter : Type :=
| SetProducts (data : list Product)
| SetLoading (b : bool)
| SetError (e : option string).

Definition applySetter (ps : ProductsState) (s : Setter) : ProductsState :=
  match s with
  | SetProducts data => {| products := data; loading := loading ps; error := error ps |}
  | SetLoading b => {| products := products ps; loading := b; error := error ps |}
  | SetError e => {| products := products ps; loading := loading ps; error := e |}
  end.

(** The [try] block of [fetchProducts], given how the one request
    [fetch('https://fakestoreapi.com/products?limit=8')] ends: it completes
    with the setter calls it made, or throws. *)
Definition tryFetch (request : Completion Response) : Completion (list Setter) :=
  response ← request;
  if negb (ok response) then Rejected (ThrownError "Failed to fetch products")
  else
    data ← json response;
    Resolved [SetProducts data].

(** [err instanceof Error ? err.message : 'An error occurred'] *)
Definition caughtMessage (err : Thrown) : string :=
  match err with
  | ThrownError message => message
  | ThrownOther => "An error occurred"
  end.

(** [fetchProducts]: [try], [catch], [finally], as the sequence of setter
    calls made. *)
Definition fetchProducts (request : Completion Response) : list Setter :=
  match tryFetch request with
  | Resolved calls => calls
  | Rejected err => [SetError (Some (caughtMessage err))]
  end ++ [SetLoading false].

(** The states of the hook after each setter call, the first state being the
    one of the first render (request pending). *)
Fixpoint statesOf (ps : ProductsState) (calls : list Setter) : list ProductsState :=
  match calls with
  | [] => [ps]
  | s :: rest => ps :: statesOf (applySetter ps s) rest
  end.

Definition useProductsTrace (request : Completion Response) : list ProductsState :=
  statesOf initialProducts (fetchProducts request).

(** The state once the request is settled and every setter has run. *)
Definition useProducts (request : Completion Response) : ProductsState :=
  fold_left applySetter (fetchProducts request) initialProducts.

(** ** The widget tree

    A rendered JSX tree: host elements with their [className], their other
    attributes and their children; icon components of the icon library;
    fragments; text and number children; and [Nothing] for the children
    [false] and [null], which render nothing.  React keys are not part of
    the tree. *)
Inductive Node : Type :=
| Elem (tag : string) (className : option string) (attrs : list (string * string))
       (children : list Node)
| Icon (name : string) (size : Z) (className : option string)
| Frag (children : list Node)
| Text (s : string)
| Num (n : number)
| Nothing.

(** [cond && node] for a boolean [cond]. *)
Definition whenTrue (cond : bool) (node : Node) : Node :=
  if cond then node else Nothing.

(** [value && node] for a [value] that is a string or [null]: [null] renders
    nothing, the empty string is itself the (empty) child, any other string
    gives [node]. *)
Definition whenString (value : option string) (node : string -> Node) : Node :=
  match value with
  | None => Nothing
  | Some s => if String.eqb s "" then Text "" else node s
  end.

(** ** Product card (lines 275-297) *)

Definition ProductCard (theme : string) (product : Product) : Node :=
  let styles := getThemeStyles theme in
  Elem "div" (Some (productCard styles)) [] [
    Elem "img" (Some "w-full h-48 object-contain mb-4 rounded-lg")
         [("src", Product.image product); ("alt", Product.title product)] [];
    Elem "h3" (Some "font-bold text-lg mb-2 line-clamp-2") [] [Text (Product.title product)];
    Elem "p" (Some "text-sm opacity-75 mb-3 line-clamp-2") [] [Text (Product.description product)];
    Elem "div" (Some "flex justify-between items-center") [] [
      Elem "span" (Some "text-xl font-bold") [] [Text "$"; Num (Product.price product)];
      Elem "div" (Some "flex items-center space-x-1") [] [
        Icon "Star" 16 (Some "fill-current text-yellow-500");
        Elem "span" (Some "text-sm") [] [Num (Product.rate (Product.rating product))]
      ]
    ]
  ].

(** The sidebar list shared by the three two-column variants:
    [labels.map(item => <li key={item}><button className=...>{item}</button></li>)]. *)
Definition sidebarItem (label : string) : Node :=
  Elem "li" None [] [
    Elem "button"
         (Some "w-full text-left px-3 py-2 text-gray-300 hover:text-yellow-400 hover:bg-gray-700 rounded transition-colors")
         [] [Text label]
  ].

Definition sidebarBlock (styles : ThemeStyles) (heading : string) (labels : list string) : Node :=
  Elem "div" (sidebar styles) [] [
    Elem "h3" (Some "text-xl font-bold mb-4 text-yellow-400") [] [Text heading];
    Elem "ul" (Some "space-y-2") [] (map sidebarItem labels)
  ].

(** ** Home page (lines 300-368) *)

Definition HomePage (theme : string) (ps : ProductsState) : Node :=
  let styles := getThemeStyles theme in
  if String.eqb theme "theme2" then
    Elem "div" (Some (main styles)) [] [
      sidebarBlock styles "Categories" ["Electronics"; "Clothing"; "Books"; "Home & Garden"];
      Elem "div" (content styles) [] [
        Elem "h1" (Some (title styles)) [] [Text "Welcome to ThemeStore"];
        Elem "p" (Some (paragraph styles)) [] [
          Text "Experience the power of dynamic theming with our multi-theme switcher application. This dark theme features a bold sidebar layout with serif typography for a sophisticated reading experience."
        ];
        Elem "button" (Some (button styles)) [] [Text "Explore Products"];
        Elem "div" (Some (card styles)) [] [
          Elem "h2" (Some "text-2xl font-bold mb-4 text-yellow-400") [] [Text "Featured Products"];
          whenTrue (loading ps) (Elem "p" None [] [Text "Loading products..."]);
          whenString (error ps) (fun e => Elem "p" (Some "text-red-400") [] [Text "Error: "; Text e]);
          Elem "div" (Some (productGrid styles)) [] (map (ProductCard theme) (products ps))
        ]
      ]
    ]
  else
    Elem "main" (Some (main styles)) [] [
      Elem "h1" (Some (title styles)) [] [Text "Welcome to ThemeStore"];
      Elem "p" (Some (paragraph styles)) [] [
        Text "Experience the power of dynamic theming with our multi-theme switcher application. Switch between different themes to see how layout, typography, and colors transform the entire user experience."
      ];
      Elem "div" (Some "text-center mb-8") [] [
        Elem "button" (Some (button styles)) [] [Text "Explore Products"]
      ];
      Elem "div" (Some (card styles)) [] [
        Elem "h2"
             (Some ("text-2xl font-bold mb-6 " ++
                    (if String.eqb theme "theme3"
                     then "text-center bg-gradient-to-r from-pink-500 to-purple-600 bg-clip-text text-transparent"
                     else "")))
             [] [Text "Featured Products"];
        whenTrue (loading ps) (Elem "p" (Some "text-center") [] [Text "Loading products..."]);
        whenString (error ps) (fun e => Elem "p" (Some "text-red-500 text-center") [] [Text "Error: "; Text e]);
        Elem "div" (Some (productGrid styles)) [] (map (ProductCard theme) (products ps))
      ]
    ].

(** ** About page (lines 371-429) *)

Definition AboutContent (styles : ThemeStyles) : Node :=
  Frag [
    Elem "h1" (Some (title styles)) [] [Text "About ThemeStore"];
    Elem "p" (Some (paragraph styles)) [] [
      Text "ThemeStore is a demonstration of advanced React theming capabilities. Built with TypeScript, Context API, and modern React patterns, this application showcases how different themes can completely transform user experience."
    ];
    Elem "div" (Some (card styles)) [] [
      Elem "h2" (Some "text-2xl font-bold mb-4") [] [Text "Technologies Used"];
      Elem "ul" (Some "space-y-2") [] [
        Elem "li" None [] [Text "• React 18 with TypeScript"];
        Elem "li" None [] [Text "• Context API for state management"];
        Elem "li" None [] [Text "• Tailwind CSS for styling"];
        Elem "li" None [] [Text "• FakeStore API integration"];
        Elem "li" None [] [Text "• LocalStorage for persistence"];
        Elem "li" None [] [Text "• Responsive design patterns"]
      ]
    ];
    Elem "div" (Some (card styles)) [] [
      Elem "h2" (Some "text-2xl font-bold mb-4") [] [Text "Theme Features"];
      Elem "p" (Some "mb-4") [] [Text "Each theme offers unique characteristics:"];
      Elem "ul" (Some "space-y-2") [] [
        Elem "li" None [] [Text "• "; Elem "strong" None [] [Text "Theme 1:"];
                           Text " Clean minimalist design with light colors"];
        Elem "li" None [] [Text "• "; Elem "strong" None [] [Text "Theme 2:"];
                           Text " Dark mode with sidebar navigation"];
        Elem "li" None [] [Text "• "; Elem "strong" None [] [Text "Theme 3:"];
                           Text " Vibrant gradients with playful animations"]
      ]
    ]
  ].

Definition AboutPage (theme : string) : Node :=
  let styles := getThemeStyles theme in
  if String.eqb theme "theme2" then
    Elem "div" (Some (main styles)) [] [
      sidebarBlock styles "Navigation" ["Company"; "Team"; "Mission"; "Values"];
      Elem "div" (content styles) [] [AboutContent styles]
    ]
  else
    Elem "main" (Some (main styles)) [] [AboutContent styles].

(** ** Contact page (lines 432-504) *)

Definition inputClass : string :=
  "w-full p-3 rounded-lg border border-gray-300 focus:outline-none focus:ring-2 focus:ring-blue-500".

Definition ContactContent (styles : ThemeStyles) : Node :=
  Frag [
    Elem "h1" (Some (title styles)) [] [Text "Contact Us"];
    Elem "p" (Some (paragraph styles)) [] [
      Text "Get in touch with our team for any questions, feedback, or collaboration opportunities."
    ];
    Elem "div" (Some (card styles)) [] [
      Elem "h2" (Some "text-2xl font-bold mb-4") [] [Text "Contact Information"];
      Elem "div" (Some "space-y-4") [] [
        Elem "div" (Some "flex items-center space-x-3") [] [
          Icon "Mail" 20 None;
          Elem "span" None [] [Text "contact@themestore.com"]
        ];
        Elem "div" (Some "flex items-center space-x-3") [] [
          Icon "User" 20 None;
          Elem "span" None [] [Text "+1 (555) 123-4567"]
        ]
      ]
    ];
    Elem "div" (Some (card styles)) [] [
      Elem "h2" (Some "text-2xl font-bold mb-4") [] [Text "Send Message"];
      Elem "div" (Some "space-y-4") [] [
        Elem "input" (Some inputClass) [("type", "text"); ("placeholder", "Your Name")] [];
        Elem "input" (Some inputClass) [("type", "email"); ("placeholder", "Your Email")] [];
        Elem "textarea" (Some (inputClass ++ " resize-none"))
             [("placeholder", "Your Message"); ("rows", "4")] [];
        Elem "button" (Some (button styles)) [("type", "button")] [Text "Send Message"]
      ]
    ]
  ].

Definition ContactPage (theme : string) : Node :=
  let styles := getThemeStyles theme in
  if String.eqb theme "theme2" then
    Elem "div" (Some (main styles)) [] [
      sidebarBlock styles "Quick Links" ["Support"; "Sales"; "Partnership"; "Careers"];
      Elem "div" (content styles) [] [ContactContent styles]
    ]
  else
    Elem "main" (Some (main styles)) [] [ContactContent styles].

(** ** Page dispatch (lines 522-531): [renderPage] of [AppContent] *)

Definition renderPage (theme currentPage : string) (ps : ProductsState) : Node :=
  if String.eqb currentPage "about" then AboutPage theme
  else if String.eqb currentPage "contact" then ContactPage theme
  else HomePage theme ps.

(** ** Reading a widget tree *)

Definition tagOf (n : Node) : option string :=
  match n with
  | Elem tag _ _ _ => Some tag
  | _ => None
  end.

Definition hasTag (tag : string) (n : Node) : bool :=
  match tagOf n with
  | Some tag' => String.eqb tag' tag
  | None => false
  end.

Definition classOf (n : Node) : option string :=
  match n with
  | Elem _ className _ _ => className
  | Icon _ _ className => className
  | _ => None
  end.

Definition childrenOf (n : Node) : list Node :=
  match n with
  | Elem _ _ _ children => children
  | Frag children => children
  | _ => []
  end.

(** [hasClass c n]: the node [n] carries exactly the class string [c]. *)
Definition hasClass (c : string) (n : Node) : bool :=
  match classOf n with
  | Some c' => String.eqb c' c
  | None => false
  end.

(** All nodes of a tree that satisfy [q], in document order. *)
Fixpoint select (q : Node -> bool) (n : Node) : list Node :=
  (if q n then [n] else []) ++
  match n with
  | Elem _ _ _ children => flat_map (select q) children
  | Frag children => flat_map (select q) children
  | _ => []
  end.

(** The structure of a tree: the tree with every [className] erased. *)
Fixpoint shape (n : Node) : Node :=
  match n with
  | Elem tag _ attrs children => Elem tag None attrs (map shape children)
  | Icon name size _ => Icon name size None
  | Frag children => Frag (map shape children)
  | Text s => Text s
  | Num x => Num x
  | Nothing => Nothing
  end.

(** The regions of a page, found by the style token they carry. *)
Definition sidebarRegions (page : Node) : list Node :=
  select (hasClass "w-64 bg-gray-800 min-h-screen p-6 fixed left-0 top-20") page.

Definition contentRegions (page : Node) : list Node :=
  select (hasClass "ml-64 flex-1 p-8") page.

Definition productRegions (theme : string) (page : Node) : list Node :=
  select (hasClass (productGrid (getThemeStyles theme))) page.

Definition productCards (theme : string) (page : Node) : list Node :=
  select (hasClass (productCard (getThemeStyles theme))) page.

(** An error message: a paragraph whose children are the label ["Error: "]
    and a text. *)
Definition isErrorMessage (n : Node) : bool :=
  hasTag "p" n &&
  match childrenOf n with
  | [Text label; Text _] => String.eqb label "Error: "
  | _ => false
  end.

Definition errorMessages (page : Node) : list Node := select isErrorMessage page.

(** The loading indicator: a paragraph, unstyled or centred, whose only child
    is the text ["Loading products..."]. *)
Definition isLoadingMessage (n : Node) : bool :=
  hasTag "p" n &&
  match classOf n with
  | None => true
  | Some c => String.eqb c "text-center"
  end &&
  match childrenOf n with
  | [Text s] => String.eqb s "Loading products..."
  | _ => false
  end.

Definition loadingMessages (page : Node) : list Node := select isLoadingMessage page.

(** The failure of a request, if it fails: what [catch] receives. *)
Definition failure (request : Completion Response) : option Thrown :=
  match tryFetch request with
  | Resolved _ => None
  | Rejected err => Some err
  end.


(** ** Header (lines 196-245) *)

(** [{value}] for a [value] that is a string or [undefined]. *)
Definition optionalText (value : option string) : Node :=
  match value with
  | Some s => Text s
  | None => Nothing
  end.

Definition navButtonClass (styles : ThemeStyles) (currentPage : string) (item : NavItem.t) : string :=
  navButton styles ++ " " ++ (if String.eqb currentPage (NavItem.id item) then "font-bold" else "").

Definition navButtonNode (styles : ThemeStyles) (currentPage : string) (item : NavItem.t) : Node :=
  Elem "button" (Some (navButtonClass styles currentPage item)) [] [
    Icon (NavItem.icon item) 18 None;
    Elem "span" None [] [Text (NavItem.name item)]
  ].

Definition themeOptionNode (theme : string) (themeOption : ThemeOption.t) : Node :=
  Elem "button"
       (Some ("w-full text-left px-4 py-2 hover:bg-gray-100 " ++
              (if String.eqb theme "theme2" then "hover:bg-gray-700" else "") ++ " " ++
              (if String.eqb theme "theme3" then "hover:bg-purple-100" else "") ++
              " transition-colors"))
       [] [Text (ThemeOption.name themeOption)].

Definition Header (theme currentPage : string) (dropdownOpen : bool) : Node :=
  let styles := getThemeStyles theme in
  Elem "header" (Some (header styles)) [] [
    Elem "div" (Some (headerContent styles)) [] [
      Elem "div" (Some (logo styles)) [] [
        Icon "ShoppingBag" 24 (Some "inline-block mr-2");
        Text "ThemeStore"
      ];
      Elem "nav" (Some (nav styles)) [] (map (navButtonNode styles currentPage) navItems);
      Elem "div" (Some (dropdown styles)) [] [
        Elem "button" (Some (dropdownButton styles)) [] [
          Elem "span" None [] [optionalText (themeName theme)];
          Icon "ChevronDown" 16 None
        ];
        whenTrue dropdownOpen
          (Elem "div" (Some (dropdownMenu styles)) [] (map (themeOptionNode theme) themes))
      ]
    ]
  ].

(** ** The application frame (lines 517-539) *)

Definition AppContent (ui : UiState) (ps : ProductsState) : Node :=
  let theme := theme (app ui) in
  let currentPage := currentPage (app ui) in
  let styles := getThemeStyles theme in
  Elem "div" (Some (container styles)) [] [
    Header theme currentPage (dropdownOpen ui);
    renderPage theme currentPage ps
  ].

(** ** Reading the header *)

(** The buttons of the navigation bar, and those shown in bold. *)
Definition navButtons (header : Node) : list Node :=
  flat_map (select (hasTag "button")) (select (hasTag "nav") header).

Definition isBold (styles : ThemeStyles) (n : Node) : bool :=
  hasClass (navButton styles ++ " font-bold") n.

(** The entries of the open picker menu. *)
Definition menuOptions (styles : ThemeStyles) (header : Node) : list Node :=
  flat_map (select (hasTag "button")) (select (hasClass (dropdownMenu styles)) header).

(** The text nodes of a tree, in document order. *)
Fixpoint texts (n : Node) : list string :=
  match n with
  | Elem _ _ _ children => flat_map texts children
  | Frag children => flat_map texts children
  | Text s => [s]
  | _ => []
  end.

(** What a tree displays, in document order: its text children and its
    number children ([{product.price}] is displayed as well as a string). *)
Inductive Content : Type :=
| Str (s : string)
| Number (n : number).

Fixpoint contents (n : Node) : list Content :=
  match n with
  | Elem _ _ _ children => flat_map contents children
  | Frag children => flat_map contents children
  | Text s => [Str s]
  | Num x => [Number x]
  | _ => []
  end.

(** What a card is to display of its product. *)
Definition cardContents (product : Product) : list Content :=
  [Str (Product.title product); Str (Product.description product);
   Str "$"; Number (Product.price product);
   Number (Product.rate (Product.rating product))].

End Storefront.

Arguments Response : clear implicits.
Arguments ProductsState : clear implicits.
Arguments Setter : clear implicits.
Arguments Node : clear implicits.
Arguments Content : clear implicits.

(** * Properties *)

(** ** Theme identifiers and style bundles *)

Lemma isThemeType_false (theme : string) :
  isThemeType theme = false ->
  String.eqb theme "theme1" = false /\
  String.eqb theme "theme2" = false /\
  String.eqb theme "theme3" = false.
Proof.
  unfold isThemeType. intros H.
  apply orb_false_elim in H as [H H3].
  apply orb_false_elim in H as [H1 H2].
  auto.
Qed.

Lemma isThemeType_nonempty (theme : string) : isThemeType theme = true -> theme <> "".
Proof. intros H ->. discriminate H. Qed.

Lemma themeView (theme : string) : ThemeView theme.
Proof.
  destruct (isThemeType theme) eqn:E; [| now apply Unrecognized].
  unfold isThemeType in E.
  apply orb_prop in E as [E | E]; [apply orb_prop in E as [E | E] |];
    apply String.eqb_eq in E; subst theme; constructor.
Qed.

Lemma getThemeStyles_theme1 : getThemeStyles "theme1" = theme1Styles.
Proof. rewrite getThemeStyles_equation. reflexivity. Qed.

Lemma getThemeStyles_theme2 : getThemeStyles "theme2" = theme2Styles.
Proof. rewrite getThemeStyles_equation. reflexivity. Qed.

Lemma getThemeStyles_theme3 : getThemeStyles "theme3" = theme3Styles.
Proof. rewrite getThemeStyles_equation. reflexivity. Qed.

Lemma getThemeStyles_fallback (theme : string) :
  isThemeType theme = false -> getThemeStyles theme = theme1Styles.
Proof.
  intros H. apply isThemeType_false in H as (H1 & H2 & H3).
  rewrite getThemeStyles_equation, H1, H2, H3.
  apply getThemeStyles_theme1.
Qed.

(** [bundles]: replace the calls at the three identifiers by their bundles. *)
Ltac bundles :=
  rewrite ?getThemeStyles_theme1, ?getThemeStyles_theme2, ?getThemeStyles_theme3.

Tactic Notation "bundles" "in" hyp(H) :=
  rewrite ?getThemeStyles_theme1, ?getThemeStyles_theme2, ?getThemeStyles_theme3 in H.

(** [by_theme theme]: one goal per case of the [switch]; in the [default:]
    case the three tests are known to fail and the bundle is theme1's. *)
Ltac by_theme theme :=
  let H := fresh "Hunrecognized" in
  let H1 := fresh "Hne1" in
  let H2 := fresh "Hne2" in
  let H3 := fresh "Hne3" in
  let Hf := fresh "Hfallback" in
  destruct (themeView theme) as [ | | | theme H];
  [ | | | pose proof (isThemeType_false theme H) as (H1 & H2 & H3);
          pose proof (getThemeStyles_fallback theme H) as Hf ].

(** C6.  [getThemeStyles] returns a bundle for every string: the result is
    always one of the three bundles of the [switch], and for every input
    outside the three recognised identifiers it is the bundle of ['theme1'].
    Being a function of the embedding, it reads and writes no state. *)
Theorem getThemeStyles_total_with_default (theme : string) :
  In (getThemeStyles theme)
     [getThemeStyles "theme1"; getThemeStyles "theme2"; getThemeStyles "theme3"] /\
  (isThemeType theme = false -> getThemeStyles theme = getThemeStyles "theme1").
Proof.
  split.
  - by_theme theme; simpl; auto.
  - intros H. apply isThemeType_false in H as (H1 & H2 & H3).
    rewrite (getThemeStyles_equation theme), H1, H2, H3. reflexivity.
Qed.

(** C7.  Every bundle that [getThemeStyles] returns (for the three
    identifiers, and hence for any string) has a non-empty token for each
    required region: container, header, navigation, button, card, product
    grid, product card, title, paragraph and main.  The ['theme2'] bundle
    defines non-empty [sidebar] and [content] tokens; for every other theme,
    ['theme1'] and ['theme3'] included, both are undefined. *)
Theorem getThemeStyles_tokens :
  (forall theme, Forall (fun token => token <> "") (requiredTokens (getThemeStyles theme))) /\
  (exists s c, sidebar (getThemeStyles "theme2") = Some s /\
               content (getThemeStyles "theme2") = Some c /\ s <> "" /\ c <> "") /\
  (forall theme, theme <> "theme2" ->
     sidebar (getThemeStyles theme) = None /\ content (getThemeStyles theme) = None).
Proof.
  split; [| split].
  - intros theme.
    by_theme theme; bundles; try rewrite Hfallback;
      unfold requiredTokens; simpl; repeat constructor; discriminate.
  - rewrite getThemeStyles_theme2. simpl. do 2 eexists. repeat split; discriminate.
  - intros theme Hne. by_theme theme; bundles; try rewrite Hfallback;
      try contradiction; split; reflexivity.
Qed.

(** ** The theme initialiser *)

Lemma orElse_absent (b : string) : orElse None b = b.
Proof. reflexivity. Qed.

Lemma orElse_truthy (s b : string) : s <> "" -> orElse (Some s) b = s.
Proof.
  intros Hs. unfold orElse.
  destruct (String.eqb s "") eqn:E; [| reflexivity].
  apply String.eqb_eq in E. contradiction.
Qed.

Lemma loadTheme_cases (storage : gmap string string) :
  (loadTheme storage = "theme1" /\
     (getItem themeKey storage = None \/ getItem themeKey storage = Some "")) \/
  (exists s, getItem themeKey storage = Some s /\ s <> "" /\ loadTheme storage = s).
Proof.
  unfold loadTheme. destruct (getItem themeKey storage) as [s |] eqn:E.
  - destruct (String.eqb s "") eqn:Es.
    + apply String.eqb_eq in Es. subst s. left. split; [reflexivity | now right].
    + apply String.eqb_neq in Es. right. exists s.
      repeat split; [assumption | now apply orElse_truthy].
  - left. split; [reflexivity | now left].
Qed.

(** C1, as stated, does not hold: a store that holds the unrecognised value
    ["purple"] under the theme key makes the initialiser return ["purple"],
    not ['theme1']. *)
Lemma loadTheme_unrecognized_counterexample :
  ~ (forall storage : gmap string string,
       (getItem themeKey storage = None \/
        exists s, getItem themeKey storage = Some s /\ isThemeType s = false) ->
       loadTheme storage = "theme1").
Proof.
  intros claim.
  specialize (claim {[ themeKey := "purple" ]}).
  assert (H : loadTheme {[ themeKey := "purple" ]} = "purple").
  { unfold loadTheme, getItem. now rewrite lookup_singleton_eq. }
  rewrite H in claim.
  assert (contra : "purple" = "theme1"); [| discriminate contra].
  apply claim. right. exists "purple". split; [| reflexivity].
  unfold getItem. apply lookup_singleton_eq.
Qed.

(** C1, amended.  Whenever the value stored under the theme key is absent or
    is not one of the three recognised identifiers, the style bundle resolved
    for the loaded theme is the bundle of ['theme1']; the identifier that the
    initialiser returns is ['theme1'] itself when the stored value is absent or
    the empty string, and is the stored string, unchanged, otherwise.  The
    initialiser is a total function of the store. *)
Theorem loadTheme_default (storage : gmap string string) :
  (getItem themeKey storage = None \/
   exists s, getItem themeKey storage = Some s /\ isThemeType s = false) ->
  getThemeStyles (loadTheme storage) = getThemeStyles "theme1" /\
  (getItem themeKey storage = None \/ getItem themeKey storage = Some "" ->
   loadTheme storage = "theme1") /\
  (forall s, getItem themeKey storage = Some s -> s <> "" -> loadTheme storage = s).
Proof.
  intros Hstored. split; [| split].
  - destruct (loadTheme_cases storage) as [[-> _] | (s & Hs & Hne & ->)]; [reflexivity |].
    destruct Hstored as [Habs | (s' & Hs' & Hun)]; [congruence |].
    assert (s' = s) by congruence. subst s'.
    rewrite getThemeStyles_theme1. now apply getThemeStyles_fallback.
  - intros [Habs | Hempty]; unfold loadTheme.
    + now rewrite Habs.
    + now rewrite Hempty.
  - intros s Hs Hne. unfold loadTheme. rewrite Hs. now apply orElse_truthy.
Qed.

Lemma loadTheme_default_witness :
  getThemeStyles (loadTheme (∅ : gmap string string)) = getThemeStyles "theme1" /\
  (getItem themeKey (∅ : gmap string string) = None \/
   getItem themeKey (∅ : gmap string string) = Some "" ->
   loadTheme (∅ : gmap string string) = "theme1") /\
  (forall s, getItem themeKey (∅ : gmap string string) = Some s -> s <> "" ->
   loadTheme (∅ : gmap string string) = s).
Proof.
  apply (loadTheme_default ∅). left. reflexivity.
Defined.

(** C10.  Every non-empty string stored under the theme key is returned by
    the initialiser as it is, recognised or not; an absent or empty stored
    value yields ['theme1']; and nothing else does: the initialiser returns
    ['theme1'] only when the stored value is absent, empty, or ['theme1']
    itself. *)
Theorem loadTheme_stored_verbatim (storage : gmap string string) :
  (forall s, getItem themeKey storage = Some s -> s <> "" -> loadTheme storage = s) /\
  (getItem themeKey storage = None \/ getItem themeKey storage = Some "" ->
   loadTheme storage = "theme1") /\
  (loadTheme storage = "theme1" ->
   getItem themeKey storage = None \/ getItem themeKey storage = Some "" \/
   getItem themeKey storage = Some "theme1").
Proof.
  split; [| split].
  - intros s Hs Hne. unfold loadTheme. rewrite Hs. now apply orElse_truthy.
  - intros [Habs | Hempty]; unfold loadTheme.
    + now rewrite Habs.
    + now rewrite Hempty.
  - intros Hload.
    destruct (loadTheme_cases storage) as [[_ [Habs | Hempty]] | (s & Hs & _ & Heq)]; auto.
    right. right. congruence.
Qed.

Lemma loadTheme_stored_verbatim_witness :
  loadTheme {[ themeKey := "purple" ]} = "purple" /\
  loadTheme {[ themeKey := "" ]} = "theme1" /\
  loadTheme (∅ : gmap string string) = "theme1".
Proof.
  split; [| split].
  - apply (proj1 (loadTheme_stored_verbatim {[ themeKey := "purple" ]}) "purple").
    + unfold getItem. apply lookup_singleton_eq.
    + discriminate.
  - apply (proj1 (proj2 (loadTheme_stored_verbatim {[ themeKey := "" ]}))).
    right. unfold getItem. apply lookup_singleton_eq.
  - apply (proj1 (proj2 (loadTheme_stored_verbatim ∅))).
    left. reflexivity.
Defined.

(** ** The two state cells *)

Lemma theme_selectTheme (x : string) (st : AppState) : theme (selectTheme x st) = x.
Proof.
  unfold selectTheme, commitEffects.
  destruct (String.eqb (theme st) (theme (setTheme x st))); reflexivity.
Qed.

Lemma storage_selectTheme (x : string) (st : AppState) :
  storage (selectTheme x st) =
  if String.eqb (theme st) x then storage st else setItem themeKey x (storage st).
Proof.
  unfold selectTheme, commitEffects. simpl.
  destruct (String.eqb (theme st) x); reflexivity.
Qed.

Lemma getItem_setItem (key value : string) (storage : gmap string string) :
  getItem key (setItem key value storage) = Some value.
Proof. unfold getItem, setItem. apply lookup_insert_eq. Qed.

Lemma getItem_setItem_other (key key' value : string) (storage : gmap string string) :
  key <> key' -> getItem key' (setItem key value storage) = getItem key' storage.
Proof. intros Hne. unfold getItem, setItem. now apply lookup_insert_ne. Qed.

(** The store of a running instance always holds the current theme: the
    effect has run after mount and after every change of the cell. *)
Lemma reachable_store_holds_theme (st : AppState) :
  reachable st -> getItem themeKey (storage st) = Some (theme st).
Proof.
  induction 1 as [storage0 | st a Hst IH].
  - apply getItem_setItem.
  - destruct a as [x | page]; simpl; [| exact IH].
    rewrite theme_selectTheme, storage_selectTheme.
    destruct (String.eqb (theme st) x) eqn:E.
    + apply String.eqb_eq in E. now rewrite <- E.
    + apply getItem_setItem.
Qed.

(** C8.  In every state that an instance can reach, selecting one of the
    three valid identifiers [x] leaves a store from which the initialiser
    reads [x] again, so that a reload comes up with theme [x]. *)
Theorem selectTheme_loadTheme_roundtrip (st : AppState) (x : string) :
  reachable st -> isThemeType x = true ->
  loadTheme (storage (selectTheme x st)) = x /\
  theme (reload (selectTheme x st)) = x.
Proof.
  intros Hst Hx.
  assert (Hload : loadTheme (storage (selectTheme x st)) = x).
  { pose proof (reachable_store_holds_theme _ (reach_act st (ASelectTheme x) Hst)) as Hstore.
    simpl in Hstore. rewrite theme_selectTheme in Hstore.
    unfold loadTheme. rewrite Hstore.
    apply orElse_truthy. now apply isThemeType_nonempty. }
  split; [exact Hload |].
  unfold reload, mount. simpl. exact Hload.
Qed.

Lemma selectTheme_loadTheme_roundtrip_witness :
  loadTheme (storage (selectTheme "theme2" (mount ∅))) = "theme2" /\
  theme (reload (selectTheme "theme2" (mount ∅))) = "theme2".
Proof.
  apply (selectTheme_loadTheme_roundtrip (mount ∅) "theme2").
  - apply reach_mount.
  - reflexivity.
Defined.

(** C9.  The theme cell and the page cell are independent: selecting a theme
    leaves the current page as it is, and navigating leaves the current theme
    and the whole store, the persisted theme included, as they are. *)
Theorem theme_and_page_independent (st : AppState) (x p : string) :
  currentPage (selectTheme x st) = currentPage st /\
  theme (navigate p st) = theme st /\
  storage (navigate p st) = storage st /\
  getItem themeKey (storage (navigate p st)) = getItem themeKey (storage st).
Proof.
  repeat split.
  unfold selectTheme, commitEffects.
  destruct (String.eqb (theme st) (theme (setTheme x st))); reflexivity.
Qed.

(** ** Page dispatch *)

Lemma renderPage_about {number : Type} (theme : string) (ps : ProductsState number) :
  renderPage theme "about" ps = AboutPage theme.
Proof. reflexivity. Qed.

Lemma renderPage_contact {number : Type} (theme : string) (ps : ProductsState number) :
  renderPage theme "contact" ps = ContactPage theme.
Proof. reflexivity. Qed.

Lemma renderPage_other {number : Type} (theme page : string) (ps : ProductsState number) :
  page <> "about" -> page <> "contact" -> renderPage theme page ps = HomePage theme ps.
Proof.
  intros Ha Hc. unfold renderPage.
  apply String.eqb_neq in Ha, Hc. now rewrite Ha, Hc.
Qed.

(** [by_page page]: one goal per case of the [switch] of [renderPage]. *)
Ltac by_page page :=
  let Ha := fresh "Hnot_about" in
  let Hc := fresh "Hnot_contact" in
  destruct (String.eqb_spec page "about") as [-> | Ha];
  [ rewrite ?renderPage_about
  | destruct (String.eqb_spec page "contact") as [-> | Hc];
    [ rewrite ?renderPage_contact
    | rewrite ?(renderPage_other _ page _ Ha Hc) ] ].

(** C5.  [navigate] stores whatever string it is given as the current page;
    and whenever that string is neither ["about"] nor ["contact"], any
    unrecognised string included, the page dispatch renders the home page. *)
Theorem navigate_unconditional_home_fallback {number : Type}
    (page : string) (st : AppState) (ps : ProductsState number) :
  currentPage (navigate page st) = page /\
  (page <> "about" -> page <> "contact" ->
   renderPage (theme (navigate page st)) (currentPage (navigate page st)) ps =
   HomePage (theme st) ps).
Proof.
  split; [reflexivity |].
  intros Ha Hc. simpl. now apply renderPage_other.
Qed.

Lemma navigate_unconditional_home_fallback_witness :
  let st := navigate "unknown-page" (navigate "about" (mount ∅)) in
  currentPage st = "unknown-page" /\
  renderPage (theme st) (currentPage st) (@initialProducts Z) =
  HomePage "theme1" (@initialProducts Z).
Proof.
  pose proof (navigate_unconditional_home_fallback (number := Z)
                "unknown-page" (navigate "about" (mount ∅)) initialProducts) as [Hpage Hrender].
  split; [exact Hpage |].
  apply Hrender; discriminate.
Defined.

(** ** Reading rendered pages *)

Lemma flat_map_select_nil {number A : Type}
    (q : Node number -> bool) (f : A -> Node number) (l : list A) :
  (forall a, select q (f a) = []) -> flat_map (select q) (map f l) = [].
Proof.
  intros H. induction l as [| a l IH]; simpl; [reflexivity |].
  now rewrite H, IH.
Qed.

Lemma flat_map_select_self {number A : Type}
    (q : Node number -> bool) (f : A -> Node number) (l : list A) :
  (forall a, select q (f a) = [f a]) -> flat_map (select q) (map f l) = map f l.
Proof.
  intros H. induction l as [| a l IH]; simpl; [reflexivity |].
  now rewrite H, IH.
Qed.

(** [render]: evaluate the static part of a tree and the queries on it. *)
Ltac render := cbn; cbv [String.append]; cbn.

(** [by_state ps]: the cases of [loading && ...] and [error && ...]. *)
Ltac by_state ps :=
  let l := fresh "l" in
  let e := fresh "e" in
  let He := fresh "He" in
  destruct ps as [l [] [e |]]; unfold whenString; cbn [error loading products];
  [ destruct (String.eqb_spec e "") as [-> | He]
  | | destruct (String.eqb_spec e "") as [-> | He]
  | ].

Lemma select_productCard_self {number : Type} (theme : string) (product : Product.t number) :
  select (hasClass (productCard (getThemeStyles theme))) (ProductCard theme product) =
  [ProductCard theme product].
Proof.
  unfold ProductCard.
  by_theme theme; bundles; rewrite ?Hfallback; render; reflexivity.
Qed.

Lemma select_productGrid_card {number : Type} (theme : string) (product : Product.t number) :
  select (hasClass (productGrid (getThemeStyles theme))) (ProductCard theme product) = [].
Proof.
  unfold ProductCard.
  by_theme theme; bundles; rewrite ?Hfallback; render; reflexivity.
Qed.

Lemma select_sidebar_card {number : Type} (theme : string) (product : Product.t number) :
  sidebarRegions (ProductCard theme product) = [].
Proof.
  unfold sidebarRegions, ProductCard.
  by_theme theme; bundles; rewrite ?Hfallback; render; reflexivity.
Qed.

Lemma select_content_card {number : Type} (theme : string) (product : Product.t number) :
  contentRegions (ProductCard theme product) = [].
Proof.
  unfold contentRegions, ProductCard.
  by_theme theme; bundles; rewrite ?Hfallback; render; reflexivity.
Qed.

Lemma select_error_card {number : Type} (theme : string) (product : Product.t number) :
  errorMessages (ProductCard theme product) = [].
Proof. reflexivity. Qed.

(** The cards found on the home page are the cards of the product list of
    the hook's state, in its order, whatever the rest of the state. *)
Lemma productCards_HomePage {number : Type} (theme : string) (ps : ProductsState number) :
  productCards theme (HomePage theme ps) = map (ProductCard theme) (products ps).
Proof.
  unfold productCards.
  rewrite <- (flat_map_select_self _ _ (products ps) (select_productCard_self theme)).
  unfold HomePage.
  by_theme theme; bundles; rewrite ?Hfallback, ?Hne2, ?Hne3; by_state ps; render;
    rewrite ?app_nil_r; reflexivity.
Qed.

Lemma productRegions_HomePage {number : Type} (theme : string) (ps : ProductsState number) :
  productRegions theme (HomePage theme ps) =
  [Elem "div" (Some (productGrid (getThemeStyles theme))) []
        (map (ProductCard theme) (products ps))].
Proof.
  unfold productRegions.
  transitivity
    ([Elem "div" (Some (productGrid (getThemeStyles theme))) []
           (map (ProductCard theme) (products ps))] ++
     flat_map (select (hasClass (productGrid (getThemeStyles theme))))
              (map (ProductCard theme) (products ps)))%list.
  - unfold HomePage.
    by_theme theme; bundles; rewrite ?Hfallback, ?Hne2, ?Hne3; by_state ps; render;
      rewrite ?app_nil_r; reflexivity.
  - rewrite (flat_map_select_nil _ _ _ (select_productGrid_card theme)).
    apply app_nil_r.
Qed.

Lemma errorMessages_HomePage {number : Type} (theme : string) (ps : ProductsState number) :
  errorMessages (HomePage theme ps) =
  match error ps with
  | None => []
  | Some e =>
      if String.eqb e "" then []
      else [Elem "p" (Some (if String.eqb theme "theme2" then "text-red-400"
                            else "text-red-500 text-center")) []
                 [Text "Error: "; Text e]]
  end.
Proof.
  unfold errorMessages.
  transitivity
    (match error ps with
     | None => []
     | Some e =>
         if String.eqb e "" then []
         else [Elem "p" (Some (if String.eqb theme "theme2" then "text-red-400"
                               else "text-red-500 text-center")) []
                    [Text "Error: "; Text e]]
     end ++ flat_map (select isErrorMessage) (map (ProductCard theme) (products ps)))%list.
  - unfold HomePage.
    by_theme theme; bundles; rewrite ?Hfallback, ?Hne2, ?Hne3; by_state ps; render;
      rewrite ?app_nil_r; reflexivity.
  - rewrite (flat_map_select_nil _ _ _ (select_error_card theme)).
    apply app_nil_r.
Qed.

(** ** Layout variants *)

Lemma sidebarRegions_cards {number : Type} (theme : string) (l : list (Product.t number)) :
  flat_map (select (hasClass "w-64 bg-gray-800 min-h-screen p-6 fixed left-0 top-20"))
           (map (ProductCard theme) l) = [].
Proof. apply (flat_map_select_nil _ _ _ (select_sidebar_card theme)). Qed.

Lemma contentRegions_cards {number : Type} (theme : string) (l : list (Product.t number)) :
  flat_map (select (hasClass "ml-64 flex-1 p-8")) (map (ProductCard theme) l) = [].
Proof. apply (flat_map_select_nil _ _ _ (select_content_card theme)). Qed.

(** With [theme2] every page is a [div] of two children, the sidebar region
    and the content pane, and these are the only such regions of the page. *)
Lemma renderPage_two_column {number : Type} (page : string) (ps : ProductsState number) :
  exists sb ct,
    renderPage "theme2" page ps = Elem "div" (Some "pt-20 flex") [] [sb; ct] /\
    sidebarRegions (renderPage "theme2" page ps) = [sb] /\
    contentRegions (renderPage "theme2" page ps) = [ct].
Proof.
  by_page page; [unfold AboutPage | unfold ContactPage | unfold HomePage; by_state ps];
    bundles; render; do 2 eexists; (split; [reflexivity |]);
    rewrite ?sidebarRegions_cards, ?contentRegions_cards, ?app_nil_r; split; try reflexivity.
Qed.

(** With any other theme every page is a [main] element and holds neither
    region. *)
Lemma renderPage_single_column {number : Type} (theme page : string) (ps : ProductsState number) :
  theme <> "theme2" ->
  (exists children,
     renderPage theme page ps = Elem "main" (Some (main (getThemeStyles theme))) [] children) /\
  sidebarRegions (renderPage theme page ps) = [] /\
  contentRegions (renderPage theme page ps) = [].
Proof.
  intros Hne. split.
  - apply String.eqb_neq in Hne.
    by_page page; [unfold AboutPage | unfold ContactPage | unfold HomePage];
      rewrite Hne; eexists; reflexivity.
  - by_page page; [unfold AboutPage | unfold ContactPage | unfold HomePage];
      (by_theme theme; [ | congruence | | ]); bundles; rewrite ?Hfallback, ?Hne2, ?Hne3;
      try by_state ps; render;
      rewrite ?sidebarRegions_cards, ?contentRegions_cards, ?app_nil_r; split; reflexivity.
Qed.

(** Apart from the test for [theme2], the theme reaches a page through
    class names only. *)
Lemma renderPage_same_shape {number : Type} (theme theme' page : string) (ps : ProductsState number) :
  theme <> "theme2" -> theme' <> "theme2" ->
  shape (renderPage theme page ps) = shape (renderPage theme' page ps).
Proof.
  intros Hne Hne'. apply String.eqb_neq in Hne, Hne'.
  by_page page; [unfold AboutPage | unfold ContactPage | unfold HomePage];
    rewrite Hne, Hne'; cbn; rewrite ?map_map; reflexivity.
Qed.

(** C2.  Every page (["about"], ["contact"], and the home page for any other
    identifier) rendered with ['theme2'] is a two-column tree: its root has
    exactly two children, the one sidebar region and the one content pane of
    the page.  Rendered with any other theme, ['theme1'] and ['theme3']
    included, the page is a single [main] column that holds no sidebar and no
    content pane.  The test for ['theme2'] is the only branch on the theme
    that changes the structure: any two themes other than ['theme2'] give
    trees that differ in class names at most. *)
Theorem layout_variant_by_theme {number : Type} (page : string) (ps : ProductsState number) :
  (exists sb ct,
     renderPage "theme2" page ps = Elem "div" (Some "pt-20 flex") [] [sb; ct] /\
     sidebarRegions (renderPage "theme2" page ps) = [sb] /\
     contentRegions (renderPage "theme2" page ps) = [ct]) /\
  (forall theme, theme <> "theme2" ->
     (exists children,
        renderPage theme page ps =
        Elem "main" (Some (main (getThemeStyles theme))) [] children) /\
     sidebarRegions (renderPage theme page ps) = [] /\
     contentRegions (renderPage theme page ps) = []) /\
  (forall theme theme', theme <> "theme2" -> theme' <> "theme2" ->
     shape (renderPage theme page ps) = shape (renderPage theme' page ps)).
Proof.
  split; [| split].
  - apply renderPage_two_column.
  - intros theme Hne. now apply renderPage_single_column.
  - intros theme theme' Hne Hne'. now apply renderPage_same_shape.
Qed.

(** ** The product hook *)

Lemma useProducts_success {number : Type} (data : list (Product.t number)) :
  useProducts (Resolved {| ok := true; json := Resolved data |}) =
  {| products := data; loading := false; error := None |}.
Proof. reflexivity. Qed.

Lemma failure_fetchProducts {number : Type}
    (request : Completion (Response number)) (err : Thrown) :
  failure request = Some err ->
  fetchProducts request = [SetError (Some (caughtMessage err)); SetLoading false].
Proof.
  unfold failure, fetchProducts. intros H.
  destruct (tryFetch request) as [calls | err']; [discriminate |].
  injection H as ->. reflexivity.
Qed.

Lemma useProducts_failure {number : Type}
    (request : Completion (Response number)) (err : Thrown) :
  failure request = Some err ->
  useProducts request =
  {| products := []; loading := false; error := Some (caughtMessage err) |}.
Proof.
  intros H. unfold useProducts. now rewrite (failure_fetchProducts _ _ H).
Qed.


(** C3.  After a successful fetch of a product list [data] of any length
    N (0 <= N <= 8 included), the cards found on the home page are exactly
    the cards of the products of [data], one per product and in the order of
    [data]; there are N of them, and they are the children of the one product
    grid of the page.  This holds for every theme. *)
Theorem successful_fetch_cards_in_order {number : Type}
    (theme : string) (data : list (Product.t number)) :
  let page := HomePage theme (useProducts (Resolved {| ok := true; json := Resolved data |})) in
  productCards theme page = map (ProductCard theme) data /\
  length (productCards theme page) = length data /\
  (forall i, productCards theme page !! i = ProductCard theme <$> data !! i) /\
  productRegions theme page =
  [Elem "div" (Some (productGrid (getThemeStyles theme))) [] (map (ProductCard theme) data)].
Proof.
  intros page. subst page. rewrite useProducts_success.
  rewrite productCards_HomePage, productRegions_HomePage. simpl.
  repeat split.
  - apply length_map.
  - intros i. apply list_lookup_fmap.
Qed.




(** * Further properties of the code *)

(** ** The theme cell and the store over whole runs *)

Lemma run_snoc (actions : list Action) (a : Action) (st : AppState) :
  run (actions ++ [a]) st = act a (run actions st).
Proof. unfold run. now rewrite fold_left_app. Qed.

Lemma run_reachable (actions : list Action) (storage0 : gmap string string) :
  reachable (run actions (mount storage0)).
Proof.
  induction actions as [| a actions IH] using rev_ind.
  - apply reach_mount.
  - rewrite run_snoc. now apply reach_act.
Qed.

Lemma act_frame (a : Action) (st : AppState) (key : string) :
  key <> themeKey -> getItem key (storage (act a st)) = getItem key (storage st).
Proof.
  intros Hkey. destruct a as [x | page]; simpl; [| reflexivity].
  rewrite storage_selectTheme.
  destruct (String.eqb (theme st) x); [reflexivity |].
  apply getItem_setItem_other. congruence.
Qed.

(** X1.  After mounting over any store and any sequence of theme
    selections and navigations, the store holds the current theme under
    ['app-theme'], and every other key of the store is as it was before the
    mount. *)
Theorem store_follows_theme (storage0 : gmap string string) (actions : list Action) :
  getItem themeKey (storage (run actions (mount storage0))) =
    Some (theme (run actions (mount storage0))) /\
  (forall key, key <> themeKey ->
     getItem key (storage (run actions (mount storage0))) = getItem key storage0).
Proof.
  split.
  - apply reachable_store_holds_theme, run_reachable.
  - intros key Hkey.
    induction actions as [| a actions IH] using rev_ind.
    + apply getItem_setItem_other. congruence.
    + rewrite run_snoc, act_frame; assumption.
Qed.

Lemma loadTheme_nonempty (storage : gmap string string) : loadTheme storage <> "".
Proof.
  destruct (loadTheme_cases storage) as [[-> _] | (s & _ & Hne & ->)];
    [discriminate | assumption].
Qed.

(** X2.  A reload of a running instance whose theme is not the empty string
    comes up with the same theme and the same store, and with the page reset
    to ["home"]: the page cell is not persisted. *)
Theorem reload_keeps_theme_resets_page (st : AppState) :
  reachable st -> theme st <> "" ->
  reload st = {| theme := theme st; currentPage := "home"; storage := storage st |}.
Proof.
  intros Hst Hne.
  pose proof (reachable_store_holds_theme st Hst) as Hstore.
  unfold reload, mount, persistTheme. simpl.
  assert (Hload : loadTheme (storage st) = theme st).
  { unfold loadTheme. rewrite Hstore. now apply orElse_truthy. }
  rewrite Hload. f_equal.
  unfold setItem. now apply insert_id.
Qed.

Lemma reload_keeps_theme_resets_page_witness :
  reload (navigate "about" (selectTheme "theme3" (mount ∅))) =
  {| theme := "theme3"; currentPage := "home";
     storage := storage (navigate "about" (selectTheme "theme3" (mount ∅))) |}.
Proof.
  refine (reload_keeps_theme_resets_page
            (navigate "about" (selectTheme "theme3" (mount ∅))) _ _).
  - apply (reach_act _ (ANavigate "about")).
    apply (reach_act _ (ASelectTheme "theme3")).
    apply reach_mount.
  - discriminate.
Defined.

(** X3.  Selecting a theme twice is the same as selecting it once; selecting
    the theme that is already current changes nothing, the store included (no
    write happens); and of two selections the later one decides the theme. *)
Theorem selectTheme_idempotent (x y : string) (st : AppState) :
  selectTheme x (selectTheme x st) = selectTheme x st /\
  (theme st = x -> selectTheme x st = st) /\
  theme (selectTheme y (selectTheme x st)) = y.
Proof.
  assert (Hsame : forall s, theme s = x -> selectTheme x s = s).
  { intros [t p s] Ht. simpl in Ht. subst t.
    unfold selectTheme, commitEffects. simpl. now rewrite String.eqb_refl. }
  split; [| split].
  - apply Hsame, theme_selectTheme.
  - apply Hsame.
  - apply theme_selectTheme.
Qed.

(** X4.  Theme selection and navigation commute, and of two navigations the
    later one decides the page: neither cell keeps a history. *)
Theorem selectTheme_navigate_commute (x p q : string) (st : AppState) :
  selectTheme x (navigate p st) = navigate p (selectTheme x st) /\
  navigate q (navigate p st) = navigate q st.
Proof.
  split; [| reflexivity].
  unfold selectTheme, commitEffects, navigate, setTheme. simpl.
  destruct (String.eqb (theme st) x); reflexivity.
Qed.

(** X5.  Mounting writes back what the initialiser read: after a mount the
    store holds the loaded theme, which is never the empty string.  A first
    run over a store without the key stores ['theme1']; a store that holds a
    non-empty value, recognised or not, is left exactly as it is; and
    mounting again over the store that a mount left gives the same state. *)
Theorem mount_persists_loaded_theme (storage0 : gmap string string) :
  getItem themeKey (storage (mount storage0)) = Some (loadTheme storage0) /\
  loadTheme storage0 <> "" /\
  (getItem themeKey storage0 = None ->
   storage (mount storage0) = setItem themeKey "theme1" storage0) /\
  (forall s, getItem themeKey storage0 = Some s -> s <> "" ->
   storage (mount storage0) = storage0) /\
  mount (storage (mount storage0)) = mount storage0.
Proof.
  split; [apply getItem_setItem |]. split; [apply loadTheme_nonempty |].
  split; [| split].
  - intros Habs. unfold mount, persistTheme, loadTheme. simpl. now rewrite Habs.
  - intros s Hs Hne. unfold mount, persistTheme, loadTheme. simpl.
    rewrite Hs, (orElse_truthy s "theme1" Hne).
    unfold setItem. now apply insert_id.
  - unfold mount, persistTheme. simpl.
    assert (Hload : loadTheme (setItem themeKey (loadTheme storage0) storage0) = loadTheme storage0).
    { unfold loadTheme at 1. rewrite getItem_setItem.
      apply orElse_truthy, loadTheme_nonempty. }
    rewrite Hload. f_equal. unfold setItem. apply insert_insert_eq.
Qed.

(** ** The product hook over all outcomes *)

Lemma fetchProducts_cases {number : Type} (request : Completion (Response number)) :
  (exists data, tryFetch request = Resolved [SetProducts data] /\
                fetchProducts request = [SetProducts data; SetLoading false]) \/
  (exists err, failure request = Some err /\
               fetchProducts request = [SetError (Some (caughtMessage err)); SetLoading false]).
Proof.
  unfold failure, fetchProducts, tryFetch.
  destruct request as [[[] [data | err]] | err]; simpl; eauto.
Qed.

(** X6.  However the request ends, [fetchProducts] makes exactly two setter
    calls and the second is [setLoading(false)] (the [finally] block always
    runs); so the hook passes through exactly three states, with [loading]
    true in the first two and false in the last, and [loading] is never set
    back to true. *)
Theorem fetchProducts_always_stops_loading {number : Type}
    (request : Completion (Response number)) :
  length (fetchProducts request) = 2 /\
  last (fetchProducts request) = Some (SetLoading false) /\
  ~ In (SetLoading true) (fetchProducts request) /\
  (exists s, useProductsTrace request = [initialProducts; s; useProducts request] /\
             loading s = true) /\
  loading (useProducts request) = false.
Proof.
  unfold useProductsTrace, useProducts.
  destruct (fetchProducts_cases request) as [(data & _ & ->) | (err & _ & ->)]; simpl;
    (repeat split; [intros [H | [H | []]]; discriminate H | eexists; split; reflexivity]).
Qed.

(** X7.  A fetch succeeds exactly when the request resolves with an [ok]
    response whose body parses; then the product list is the parsed body and
    no error is set.  In every other case the product list stays empty and an
    error is set.  The body of a response that is not [ok] is never read. *)
Theorem useProducts_outcomes {number : Type} (request : Completion (Response number)) :
  (failure request = None <->
   exists response data,
     request = Resolved response /\ ok response = true /\ json response = Resolved data) /\
  (forall response data,
     request = Resolved response -> ok response = true -> json response = Resolved data ->
     useProducts request = {| products := data; loading := false; error := None |}) /\
  (forall err, failure request = Some err ->
     useProducts request =
     {| products := []; loading := false; error := Some (caughtMessage err) |}) /\
  (forall response body,
     request = Resolved response -> ok response = false ->
     useProducts request = useProducts (Resolved {| ok := false; json := body |})).
Proof.
  split; [| split; [| split]].
  - unfold failure, tryFetch. split.
    + destruct request as [[[] [data | err]] | err]; simpl; try discriminate.
      intros _. do 2 eexists. repeat split.
    + intros (response & data & -> & Hok & Hjson). simpl.
      rewrite Hok. simpl. now rewrite Hjson.
  - intros [o j] data -> Hok Hjson. simpl in Hok, Hjson. subst o j. reflexivity.
  - apply useProducts_failure.
  - intros [o j] body -> Hok. simpl in Hok. subst o. reflexivity.
Qed.

(** ** The home page over all states *)

Lemma select_loading_card {number : Type} (theme : string) (product : Product.t number) :
  loadingMessages (ProductCard theme product) = [].
Proof. reflexivity. Qed.

Lemma loadingMessages_HomePage {number : Type} (theme : string) (ps : ProductsState number) :
  loadingMessages (HomePage theme ps) =
  if loading ps
  then [Elem "p" (if String.eqb theme "theme2" then None else Some "text-center") []
             [Text "Loading products..."]]
  else [].
Proof.
  unfold loadingMessages.
  transitivity
    ((if loading ps
      then [Elem "p" (if String.eqb theme "theme2" then None else Some "text-center") []
                 [Text "Loading products..."]]
      else []) ++
     flat_map (select isLoadingMessage) (map (ProductCard theme) (products ps)))%list.
  - unfold HomePage.
    by_theme theme; bundles; rewrite ?Hfallback, ?Hne2, ?Hne3; by_state ps; render;
      rewrite ?app_nil_r; reflexivity.
  - rewrite (flat_map_select_nil _ _ _ (select_loading_card theme)).
    apply app_nil_r.
Qed.

(** X8.  In the two-column layout of the home page every product card lies
    in the content pane: the cards found inside the content pane are the
    cards of the product list, in order, and the sidebar holds none. *)
Theorem cards_in_content_pane {number : Type} (ps : ProductsState number) :
  flat_map (productCards "theme2") (contentRegions (HomePage "theme2" ps)) =
    map (ProductCard "theme2") (products ps) /\
  flat_map (productCards "theme2") (sidebarRegions (HomePage "theme2" ps)) = [].
Proof.
  rewrite <- (flat_map_select_self _ _ (products ps) (select_productCard_self "theme2")).
  unfold HomePage. bundles. by_state ps; render;
    rewrite ?sidebarRegions_cards, ?contentRegions_cards. 
  all: render; rewrite ?app_nil_r; split; try reflexivity.

Qed.

(** X9.  With ['theme2'] every page has exactly one sidebar, with a heading
    and four entries, and both are fixed by the page alone: "Navigation" on
    the about page, "Quick Links" on the contact page, and "Categories" on
    the home page, which is also what any unknown page identifier shows. *)
Theorem sidebar_labels {number : Type} (page : string) (ps : ProductsState number) :
  exists sb,
    sidebarRegions (renderPage "theme2" page ps) = [sb] /\
    length (select (hasTag "li") sb) = 4 /\
    texts sb =
      if String.eqb page "about" then ["Navigation"; "Company"; "Team"; "Mission"; "Values"]
      else if String.eqb page "contact"
           then ["Quick Links"; "Support"; "Sales"; "Partnership"; "Careers"]
           else ["Categories"; "Electronics"; "Clothing"; "Books"; "Home & Garden"].
Proof.
  by_page page; [unfold AboutPage | unfold ContactPage | unfold HomePage; by_state ps];
    bundles; render; rewrite ?sidebarRegions_cards; eexists; (split; [reflexivity |]).
  all: try (apply String.eqb_neq in Hnot_about, Hnot_contact; rewrite Hnot_about, Hnot_contact).
  all: split; reflexivity.
Qed.

(** ** The header *)

Lemma isPage_false (page : string) :
  isPage page = false ->
  String.eqb page "home" = false /\
  String.eqb page "about" = false /\
  String.eqb page "contact" = false.
Proof.
  unfold isPage. intros H.
  apply orb_false_elim in H as [H H3].
  apply orb_false_elim in H as [H1 H2].
  auto.
Qed.

Lemma pageView (page : string) : PageView page.
Proof.
  destruct (isPage page) eqn:E; [| now apply UnknownPage].
  unfold isPage in E.
  apply orb_prop in E as [E | E]; [apply orb_prop in E as [E | E] |];
    apply String.eqb_eq in E; subst page; constructor.
Qed.

(** [by_nav page]: one goal per navigation item, and one for a page that no
    item names. *)
Ltac by_nav page :=
  let H := fresh "Hunknown" in
  let H1 := fresh "Hnh" in
  let H2 := fresh "Hna" in
  let H3 := fresh "Hnc" in
  destruct (pageView page) as [ | | | page H];
  [ | | | pose proof (isPage_false page H) as (H1 & H2 & H3) ].

Lemma themeName_unrecognized (theme : string) :
  isThemeType theme = false -> themeName theme = None.
Proof.
  intros H. apply isThemeType_false in H as (H1 & H2 & H3).
  unfold themeName, themes. cbn [find ThemeOption.id].
  rewrite (String.eqb_sym "theme1"), (String.eqb_sym "theme2"), (String.eqb_sym "theme3").
  now rewrite H1, H2, H3.
Qed.

(** [fallback]: in the [default:] case, use what is known of the theme. *)
Ltac fallback :=
  repeat match goal with
  | H : getThemeStyles ?t = theme1Styles |- _ => rewrite H
  | H : String.eqb ?t _ = false |- _ => rewrite H
  | H : isThemeType ?t = false |- _ => rewrite (themeName_unrecognized t H)
  end.

Ltac by_header_theme theme := by_theme theme; bundles; fallback.

(** X10.  The navigation bar always has the three buttons Home, About and
    Contact, in this order.  The button shown in bold is the one whose item
    names the current page: exactly one when the current page is one of the
    three identifiers, and none otherwise.  So after a navigation to an
    unknown page the home page is displayed while no button is highlighted. *)
Theorem nav_highlight {number : Type} (theme page : string) (open : bool) :
  let header : Node number := Header theme page open in
  let styles := getThemeStyles theme in
  flat_map texts (navButtons header) = map NavItem.name navItems /\
  length (navButtons header) = 3 /\
  flat_map texts (List.filter (isBold styles) (navButtons header)) =
    map NavItem.name (List.filter (fun item => String.eqb page (NavItem.id item)) navItems) /\
  length (List.filter (isBold styles) (navButtons header)) = (if isPage page then 1 else 0) /\
  (isPage page = false ->
   List.filter (isBold styles) (navButtons header) = [] /\
   forall ps : ProductsState number, renderPage theme page ps = HomePage theme ps).
Proof.
  unfold Header, navButtons, isBold, navButtonNode, navButtonClass, renderPage.
  by_header_theme theme; by_nav page; destruct open; render;
    rewrite ?Hnh, ?Hna, ?Hnc, ?Hunknown; render; repeat split;
    try reflexivity; try discriminate.
Qed.

(** X11.  The picker menu is part of the header exactly while
    [dropdownOpen] is true, and then it lists the three themes in the order
    Light, Dark, Colorful.  It is closed after a mount; a click on the picker
    button toggles it and touches neither the theme, the page nor the store;
    two clicks leave the state as it was. *)
Theorem picker_menu {number : Type} (theme page : string) (ui : UiState) :
  let header : Node number := Header theme page (dropdownOpen ui) in
  let styles := getThemeStyles theme in
  menuOptions styles header =
    (if dropdownOpen ui then map (themeOptionNode theme) themes else []) /\
  flat_map texts (menuOptions styles header) =
    (if dropdownOpen ui then ["Light"; "Dark"; "Colorful"] else []) /\
  dropdownOpen (mountUi (storage (app ui))) = false /\
  dropdownOpen (clickDropdownButton ui) = negb (dropdownOpen ui) /\
  app (clickDropdownButton ui) = app ui /\
  clickDropdownButton (clickDropdownButton ui) = ui.
Proof.
  destruct ui as [st open]. cbn [dropdownOpen app].
  unfold Header, menuOptions, navButtonNode, navButtonClass, themeOptionNode.
  by_header_theme theme; by_nav page; destruct open; render;
    rewrite ?Hnh, ?Hna, ?Hnc; render; repeat split; reflexivity.
Qed.

(** X12.  The texts of the header are the logo text, the three item names,
    the name of the current theme, and the names of the menu entries when the
    menu is open.  The name of the current theme is missing exactly when the
    theme is not one of the three identifiers: then the picker button shows
    an empty label. *)
Theorem header_texts {number : Type} (theme page : string) (open : bool) :
  texts (Header theme page open : Node number) =
    (["ThemeStore"] ++ map NavItem.name navItems ++
     match themeName theme with Some name => [name] | None => [] end ++
     (if open then map ThemeOption.name themes else []))%list /\
  (themeName theme = None <-> isThemeType theme = false).
Proof.
  split.
  - unfold Header, navButtonNode, navButtonClass, themeOptionNode.
    by_header_theme theme; destruct open; reflexivity.
  - split; [| apply themeName_unrecognized].
    by_theme theme; [discriminate .. | auto].
Qed.

(** ** The fallback theme, the reachable interface states, the bundles *)

Lemma ProductCard_unrecognized {number : Type} (theme : string) (product : Product.t number) :
  isThemeType theme = false -> ProductCard theme product = ProductCard "theme1" product.
Proof.
  intros H. unfold ProductCard.
  now rewrite (getThemeStyles_fallback theme H), getThemeStyles_theme1.
Qed.

(** X13.  For a theme that is none of the three identifiers (a stale or
    foreign value of the store), every page, every product card and the
    container are rendered exactly as for ['theme1']. *)
Theorem unrecognized_theme_renders_as_theme1 {number : Type}
    (theme page : string) (ps : ProductsState number) :
  isThemeType theme = false ->
  renderPage theme page ps = renderPage "theme1" page ps /\
  (forall product : Product.t number, ProductCard theme product = ProductCard "theme1" product) /\
  container (getThemeStyles theme) = container (getThemeStyles "theme1").
Proof.
  intros H. split; [| split].
  - pose proof (isThemeType_false theme H) as (H1 & H2 & H3).
    by_page page; [unfold AboutPage | unfold ContactPage | unfold HomePage];
      rewrite (getThemeStyles_fallback theme H), getThemeStyles_theme1, ?H2, ?H3;
      try reflexivity.
    cbn [String.eqb Ascii.eqb Bool.eqb].
    rewrite (map_ext (ProductCard theme) (ProductCard "theme1"));
      [reflexivity | intros; now apply ProductCard_unrecognized].
  - intros product. now apply ProductCard_unrecognized.
  - now rewrite (getThemeStyles_fallback theme H), getThemeStyles_theme1.
Qed.

Lemma unrecognized_theme_renders_as_theme1_witness :
  renderPage "purple" "home" (@initialProducts Z) = renderPage "theme1" "home" initialProducts.
Proof.
  apply (unrecognized_theme_renders_as_theme1 "purple" "home" initialProducts).
  reflexivity.
Defined.

Lemma uiReachable_reachable (storage0 : gmap string string) (ui : UiState) :
  uiReachable storage0 ui -> reachable (app ui).
Proof.
  induction 1 as [| ui c Hui IH Hoff].
  - apply reach_mount.
  - destruct c as [item | | themeOption]; simpl.
    + now apply (reach_act _ (ANavigate (NavItem.id item))).
    + exact IH.
    + now apply (reach_act _ (ASelectTheme (ThemeOption.id themeOption))).
Qed.

(** X14.  Whatever the store held at mount, a user who only clicks what the
    header offers keeps the current page among ["home"], ["about"] and
    ["contact"], keeps the theme either as it was loaded or among the three
    identifiers, and keeps the store in step with the theme. *)
Theorem ui_keeps_page_and_theme_valid (storage0 : gmap string string) (ui : UiState) :
  uiReachable storage0 ui ->
  isPage (currentPage (app ui)) = true /\
  (theme (app ui) = loadTheme storage0 \/ isThemeType (theme (app ui)) = true) /\
  getItem themeKey (storage (app ui)) = Some (theme (app ui)).
Proof.
  intros Hui. split; [| split]; [| | now apply reachable_store_holds_theme, (uiReachable_reachable storage0)].
  - induction Hui as [| ui c Hui IH Hoff]; [reflexivity |].
    destruct c as [item | | themeOption]; simpl in *.
    + destruct Hoff as [<- | [<- | [<- | []]]]; reflexivity.
    + exact IH.
    + unfold selectTheme, commitEffects.
      destruct (String.eqb _ _); exact IH.
  - induction Hui as [| ui c Hui IH Hoff]; [now left |].
    destruct c as [item | | themeOption]; simpl in *; try exact IH.
    right. rewrite theme_selectTheme.
    destruct Hoff as [_ [<- | [<- | [<- | []]]]]; reflexivity.
Qed.

Lemma ui_keeps_page_and_theme_valid_witness :
  let ui := click (OptionClick (ThemeOption.mk "theme2" "Dark"))
              (click DropdownClick
                 (click (NavClick (NavItem.mk "about" "About" "Info"))
                    (mountUi {[ themeKey := "purple" ]}))) in
  isPage (currentPage (app ui)) = true /\
  (theme (app ui) = loadTheme {[ themeKey := "purple" ]} \/
   isThemeType (theme (app ui)) = true) /\
  getItem themeKey (storage (app ui)) = Some (theme (app ui)).
Proof.
  apply (ui_keeps_page_and_theme_valid {[ themeKey := "purple" ]}).
  apply ui_click; [apply ui_click; [apply ui_click; [apply ui_mount |] |] |].
  - simpl. auto.
  - exact I.
  - split; [reflexivity | simpl; auto].
Defined.

(** X15.  A click on an entry of the picker menu, in any state that an
    instance can reach, closes the menu, makes the entry's identifier the
    current theme, writes it to the store (a reload would load it), leaves the
    page as it is, and makes the picker button show the entry's name. *)
Theorem clickThemeOption_effect (themeOption : ThemeOption.t) (ui : UiState) :
  In themeOption themes -> reachable (app ui) ->
  let ui' := clickThemeOption themeOption ui in
  dropdownOpen ui' = false /\
  theme (app ui') = ThemeOption.id themeOption /\
  currentPage (app ui') = currentPage (app ui) /\
  getItem themeKey (storage (app ui')) = Some (ThemeOption.id themeOption) /\
  loadTheme (storage (app ui')) = ThemeOption.id themeOption /\
  themeName (theme (app ui')) = Some (ThemeOption.name themeOption).
Proof.
  intros Hin Hreach ui'. subst ui'. unfold clickThemeOption. simpl.
  pose proof (reachable_store_holds_theme _
                (reach_act _ (ASelectTheme (ThemeOption.id themeOption)) Hreach)) as Hstore.
  simpl in Hstore. rewrite theme_selectTheme in *.
  split; [reflexivity |]. split; [reflexivity |]. split.
  { unfold selectTheme, commitEffects. destruct (String.eqb _ _); reflexivity. }
  split; [exact Hstore |].
  unfold loadTheme. rewrite Hstore.
  destruct Hin as [<- | [<- | [<- | []]]]; split; reflexivity.
Qed.

Lemma clickThemeOption_effect_witness :
  let ui' := clickThemeOption (ThemeOption.mk "theme3" "Colorful")
               (clickDropdownButton (mountUi ∅)) in
  dropdownOpen ui' = false /\
  theme (app ui') = "theme3" /\
  currentPage (app ui') = "home" /\
  getItem themeKey (storage (app ui')) = Some "theme3" /\
  loadTheme (storage (app ui')) = "theme3" /\
  themeName (theme (app ui')) = Some "Colorful".
Proof.
  refine (clickThemeOption_effect (ThemeOption.mk "theme3" "Colorful")
            (clickDropdownButton (mountUi ∅)) _ _).
  - simpl. auto.
  - apply reach_mount.
Defined.

(** X16.  The bundles tell the themes apart: a theme resolves to the bundle
    of ['theme2'] only if it is ['theme2'], to the bundle of ['theme3'] only
    if it is ['theme3'], and to the bundle of ['theme1'] exactly when it is
    neither of the two. *)
Theorem getThemeStyles_distinguishes_themes (theme : string) :
  (getThemeStyles theme = getThemeStyles "theme2" <-> theme = "theme2") /\
  (getThemeStyles theme = getThemeStyles "theme3" <-> theme = "theme3") /\
  (getThemeStyles theme = getThemeStyles "theme1" <-> theme <> "theme2" /\ theme <> "theme3").
Proof.
  assert (D12 : theme1Styles <> theme2Styles) by (intros E; apply (f_equal main) in E; discriminate E).
  assert (D13 : theme1Styles <> theme3Styles) by (intros E; apply (f_equal main) in E; discriminate E).
  assert (D23 : theme2Styles <> theme3Styles) by (intros E; apply (f_equal main) in E; discriminate E).
  by_theme theme; bundles; rewrite ?Hfallback;
    (repeat split; try congruence; try discriminate; try (intros [? ?]; congruence)).
  all: intros ->; discriminate.
Qed.

(** X17.  For every theme, the six remaining mandatory tokens (header
    content, logo, dropdown, dropdown button, dropdown menu, navigation
    button) are non-empty; the header-content and dropdown tokens are the
    same in all bundles; and the sixteen mandatory tokens of a bundle are
    pairwise different, so a region is identified by its token. *)
Theorem header_tokens (theme : string) :
  Forall (fun token => token <> "") (headerTokens (getThemeStyles theme)) /\
  headerContent (getThemeStyles theme) =
    "max-w-6xl mx-auto px-4 py-4 flex justify-between items-center" /\
  dropdown (getThemeStyles theme) = "relative" /\
  NoDup (requiredTokens (getThemeStyles theme) ++ headerTokens (getThemeStyles theme)).
Proof.
  by_theme theme; bundles; rewrite ?Hfallback;
    (split; [unfold headerTokens; simpl; repeat constructor; discriminate |]);
    (split; [reflexivity |]); (split; [reflexivity |]);
    compute_done.
Qed.

(** ** Cards, titles, the frame, and the texts of the pages *)

Lemma select_price_card {number : Type} (theme : string) (product : Product.t number) :
  select (hasClass "text-xl font-bold") (ProductCard theme product) =
  [Elem "span" (Some "text-xl font-bold") [] [Text "$"; Num (Product.price product)]].
Proof.
  unfold ProductCard.
  by_theme theme; bundles; rewrite ?Hfallback; render; reflexivity.
Qed.

Lemma contents_cards {number : Type} (theme : string) (l : list (Product.t number)) :
  flat_map contents (map (ProductCard theme) l) = flat_map cardContents l.
Proof.
  induction l as [| product l IH]; [reflexivity |].
  cbn [map flat_map]. rewrite IH. reflexivity.
Qed.

(** X18.  A product card displays, in this order, the title and the
    description of its product, the text ["$"] and the price, both in one
    [span] in which ["$"] comes first, and the rate of the rating; it
    displays nothing else of the product (not the identifier, the category
    or the rating's count).  Its image has the product's image as source and
    the title as alternative text, and its structure does not depend on the
    theme.  So what the cards of the home page display, in every theme and
    state of the hook, is these five items for each product of the list, in
    the order of the list. *)
Theorem ProductCard_content {number : Type}
    (theme theme' : string) (product : Product.t number) (ps : ProductsState number) :
  contents (ProductCard theme product) =
    [Str (Product.title product); Str (Product.description product);
     Str "$"; Number (Product.price product);
     Number (Product.rate (Product.rating product))] /\
  select (hasClass "text-xl font-bold") (ProductCard theme product) =
    [Elem "span" (Some "text-xl font-bold") [] [Text "$"; Num (Product.price product)]] /\
  select (hasTag "img") (ProductCard theme product) =
    [Elem "img" (Some "w-full h-48 object-contain mb-4 rounded-lg")
          [("src", Product.image product); ("alt", Product.title product)] []] /\
  shape (ProductCard theme product) = shape (ProductCard theme' product) /\
  flat_map contents (productCards theme (HomePage theme ps)) =
    flat_map cardContents (products ps).
Proof.
  split; [reflexivity |].
  split; [apply select_price_card |].
  split; [reflexivity |].
  split; [reflexivity |].
  rewrite productCards_HomePage. apply contents_cards.
Qed.

Lemma select_h1_cards {number : Type} (theme : string) (l : list (Product.t number)) :
  flat_map (select (hasTag "h1")) (map (ProductCard theme) l) = [].
Proof. apply flat_map_select_nil. reflexivity. Qed.

Lemma select_header_cards {number : Type} (theme : string) (l : list (Product.t number)) :
  flat_map (select (hasTag "header")) (map (ProductCard theme) l) = [].
Proof. apply flat_map_select_nil. reflexivity. Qed.

(** [by_layout theme]: the two layout variants. *)
Ltac by_layout theme := destruct (String.eqb theme "theme2").

(** X19.  Every page, in every theme and state, has exactly one [h1]
    heading, and its text names the page: "About ThemeStore", "Contact Us",
    or "Welcome to ThemeStore" for the home page and for any unknown page. *)
Theorem one_title_per_page {number : Type} (theme page : string) (ps : ProductsState number) :
  flat_map texts (select (hasTag "h1") (renderPage theme page ps)) =
  [if String.eqb page "about" then "About ThemeStore"
   else if String.eqb page "contact" then "Contact Us"
   else "Welcome to ThemeStore"].
Proof.
  by_page page; [unfold AboutPage | unfold ContactPage | unfold HomePage; by_state ps];
    by_layout theme; cbn; rewrite ?select_h1_cards; try reflexivity.
  all: apply String.eqb_neq in Hnot_about, Hnot_contact; now rewrite Hnot_about, Hnot_contact.
Qed.

(** X20.  The application frame is the container of the current theme with
    two children, the header and the current page.  It holds exactly one
    [header] element, the header adds no [h1] heading, and a click on the
    picker button changes the header only. *)
Theorem AppContent_frame {number : Type} (ui : UiState) (ps : ProductsState number) :
  let theme := theme (app ui) in
  let page := currentPage (app ui) in
  classOf (AppContent ui ps) = Some (container (getThemeStyles theme)) /\
  childrenOf (AppContent ui ps) = [Header theme page (dropdownOpen ui); renderPage theme page ps] /\
  select (hasTag "header") (AppContent ui ps) = [Header theme page (dropdownOpen ui)] /\
  select (hasTag "h1") (AppContent ui ps) = select (hasTag "h1") (renderPage theme page ps) /\
  childrenOf (AppContent (clickDropdownButton ui) ps) =
    [Header theme page (negb (dropdownOpen ui)); renderPage theme page ps].
Proof.
  destruct ui as [[current page storage0] open]. cbn [app theme currentPage dropdownOpen].
  split; [reflexivity |]. split; [reflexivity |]. split; [| split; [| reflexivity]].
  - unfold AppContent, Header. cbn [app theme currentPage dropdownOpen].
    destruct (themeName current);
      (by_page page; [unfold AboutPage | unfold ContactPage | unfold HomePage; by_state ps]);
      by_layout current; destruct open; cbn; rewrite ?select_header_cards; reflexivity.
  - unfold AppContent, Header. cbn [app theme currentPage dropdownOpen].
    destruct (themeName current); destruct open; cbn; now rewrite app_nil_r.
Qed.

(** X21.  On the about and the contact page the theme changes no text: in
    every theme the texts of the page are those of the sidebar, if there is
    one, followed by the texts that ['theme1'] shows; and they do not depend
    on the state of the product hook. *)
Theorem static_pages_text {number : Type}
    (theme page : string) (ps ps' : ProductsState number) :
  page = "about" \/ page = "contact" ->
  texts (renderPage theme page ps) =
  (flat_map texts (sidebarRegions (renderPage theme page ps)) ++
   texts (renderPage "theme1" page ps'))%list.
Proof.
  intros [-> | ->]; [rewrite !renderPage_about; unfold AboutPage
                    | rewrite !renderPage_contact; unfold ContactPage];
    by_theme theme; bundles; fallback; reflexivity.
Qed.

Lemma static_pages_text_witness :
  texts (renderPage "theme2" "contact" (@initialProducts Z)) =
  (["Quick Links"; "Support"; "Sales"; "Partnership"; "Careers"] ++
   texts (renderPage "theme1" "contact" (@initialProducts Z)))%list.
Proof.
  refine (static_pages_text "theme2" "contact" initialProducts initialProducts _).
  right. reflexivity.
Defined.

(** X22.  On the home page it is otherwise: the two-column variant has a
    different introduction, so its texts are not those of the sidebar
    followed by the texts of a single-column variant. *)
Theorem home_intro_differs_by_layout {number : Type} (theme : string) (ps : ProductsState number) :
  theme <> "theme2" ->
  texts (HomePage "theme2" ps) <>
  (flat_map texts (sidebarRegions (HomePage "theme2" ps)) ++ texts (HomePage theme ps))%list.
Proof.
  intros Hne. apply String.eqb_neq in Hne.
  unfold HomePage. rewrite Hne. bundles. by_state ps; render;
    rewrite ?sidebarRegions_cards; cbn; intros E; discriminate E.
Qed.

(** X23.  On the first render the home page shows the loading indicator
    and neither a product card nor an error message; once the request is
    settled, however it ended, the loading indicator is gone. *)
Theorem loading_indicator {number : Type}
    (theme : string) (request : Completion (Response number)) :
  loadingMessages (HomePage theme (@initialProducts number)) =
    [Elem "p" (if String.eqb theme "theme2" then None else Some "text-center") []
          [Text "Loading products..."]] /\
  productCards theme (HomePage theme (@initialProducts number)) = [] /\
  errorMessages (HomePage theme (@initialProducts number)) = [] /\
  loadingMessages (HomePage theme (useProducts request)) = [].
Proof.
  rewrite !loadingMessages_HomePage, productCards_HomePage, errorMessages_HomePage.
  repeat split.
  destruct (fetchProducts_cases request) as [(data & _ & H) | (err & _ & H)];
    unfold useProducts; rewrite H; reflexivity.
Qed.

(** X24.  Once the request is settled the home page never shows both an
    error message and product cards. *)
Theorem error_excludes_cards {number : Type}
    (theme : string) (request : Completion (Response number)) :
  errorMessages (HomePage theme (useProducts request)) = [] \/
  productCards theme (HomePage theme (useProducts request)) = [].
Proof.
  rewrite errorMessages_HomePage, productCards_HomePage.
  destruct (fetchProducts_cases request) as [(data & _ & H) | (err & _ & H)];
    unfold useProducts; rewrite H; simpl; auto.
Qed.

Lemma home_intro_differs_by_layout_witness :
  texts (HomePage "theme2" (@initialProducts Z)) <>
  (flat_map texts (sidebarRegions (HomePage "theme2" (@initialProducts Z))) ++
   texts (HomePage "theme1" (@initialProducts Z)))%list.
Proof.
  refine (home_intro_differs_by_layout "theme1" initialProducts _).
  discriminate.
Defined.

(** X25.  A click on a navigation button makes its item the current page,
    the page that is then rendered is the item's page, and in the header that
    follows exactly this button is bold. *)
Theorem clickNavItem_highlights_item {number : Type}
    (item : NavItem.t) (ui : UiState) (ps : ProductsState number) :
  In item navItems ->
  let ui' := clickNavItem item ui in
  let current := theme (app ui') in
  let header : Node number := Header current (currentPage (app ui')) (dropdownOpen ui') in
  currentPage (app ui') = NavItem.id item /\
  current = theme (app ui) /\
  flat_map texts (List.filter (isBold (getThemeStyles current)) (navButtons header)) =
    [NavItem.name item] /\
  renderPage current (currentPage (app ui')) ps =
    (if String.eqb (NavItem.id item) "about" then AboutPage current
     else if String.eqb (NavItem.id item) "contact" then ContactPage current
     else HomePage current ps).
Proof.
  intros Hin. destruct ui as [[current page storage0] open].
  cbn [clickNavItem app navigate theme currentPage dropdownOpen].
  unfold Header, navButtons, isBold, navButtonNode, navButtonClass, renderPage.
  destruct Hin as [<- | [<- | [<- | []]]];
    by_header_theme current; destruct open; render; repeat split; reflexivity.
Qed.

Lemma clickNavItem_highlights_item_witness :
  let ui' := clickNavItem (NavItem.mk "contact" "Contact" "Mail") (mountUi ∅) in
  currentPage (app ui') = "contact" /\
  flat_map texts
    (List.filter (isBold (getThemeStyles "theme1"))
       (navButtons (Header "theme1" "contact" false : Node Z))) = ["Contact"].
Proof.
  pose proof (clickNavItem_highlights_item (number := Z)
                (NavItem.mk "contact" "Contact" "Mail") (mountUi ∅) initialProducts)
    as H.
  destruct H as (Hpage & _ & Hbold & _); [simpl; auto |].
  split; [exact Hpage | exact Hbold].
Defined.
